(** * FemElement: the generic finite-element base of drake's FEM solver

    A shallow embedding of [multibody/fem/fem_element.h].  The class template
    [FemElement<DerivedElement>] is instantiated by a concrete element through
    CRTP; its scalar type [T] is a template parameter.

    Two scalar types are used.  The whole class is embedded over an arbitrary
    field [F], so that matrices and vectors of compile-time size are MathComp
    matrices ['M[F]_n] and ['cV[F]_n]: this is exact arithmetic, and what is
    proved there about values uses the laws of a field.  The solver runs the
    class with [T = double]; module [Binary64] embeds the matrix operations
    once more over IEEE binary64 numbers, where rounding and overflow are
    those of the code, and settles which identities do not carry over.

    Conventions of the embedding:
    - an [EigenPtr<X>] argument is an [option X]: [None] is the null pointer,
      [Some x] a valid pointer whose pointee currently holds [x]; an operation
      that writes through the pointer returns the new contents;
    - a C++ call either returns, throws, or trips an assertion: [outcome];
    - a member a concrete element may or may not declare is an [option] of
      the [DerivedElement] record, and a call written
      [static_cast<const DerivedElement*>(this)->Member(...)] picks the
      declared member, else the one inherited from [FemElement];
    - node indices and sizes are natural numbers: the [int] arithmetic of the
      source is followed as long as it does not overflow. *)

From Stdlib Require Import String Ascii PrimFloat.
From HB Require Import structures.
From mathcomp Require Import boot algebra.

Set Implicit Arguments.
Unset Strict Implicit.
Unset Printing Implicit Defensive.

Import GRing.Theory.
Local Open Scope ring_scope.

(* ------------------------------------------------------------------------- *)
(** ** Outcomes of a call *)

Inductive outcome (A : Type) : Type :=
| Returns (a : A)            (* normal completion, with the value produced *)
| Throws (what : string)     (* a std::runtime_error with its what() text *)
| Aborts.                    (* a failed DRAKE_ASSERT / DRAKE_DEMAND *)

Arguments Returns {A} a.
Arguments Throws {A} what.
Arguments Aborts {A}.

Definition bind {A B : Type} (c : outcome A) (k : A -> outcome B) : outcome B :=
  match c with
  | Returns a => k a
  | Throws what => Throws what
  | Aborts => Aborts
  end.

Definition lift_outcome {A B : Type} (f : A -> B) (c : outcome A) : outcome B :=
  bind c (fun a => Returns (f a)).

Declare Scope outcome_scope.
Delimit Scope outcome_scope with out.
Notation "x <- c ;; k" := (bind c (fun x => k))
  (at level 61, c at next level, right associativity) : outcome_scope.
Notation "c ;;; k" := (bind c (fun _ => k))
  (at level 61, right associativity) : outcome_scope.
Local Open Scope outcome_scope.

(** Modelled from the spec: the macros [DRAKE_ASSERT] and [DRAKE_DEMAND]
    (drake/common/drake_assert.h) are not part of the sources at hand.  The
    specification describes both as assertion-style checks that fail fast and
    fatally when the condition is false; both are taken as such. *)
Definition DRAKE_DEMAND (condition : bool) : outcome unit :=
  if condition then Returns tt else Aborts.

Definition DRAKE_ASSERT (condition : bool) : outcome unit :=
  if condition then Returns tt else Aborts.

(** [EigenPtr<X>]: null, or pointing at storage that currently holds a value. *)
Definition EigenPtr (X : Type) : Type := option X.

Definition nullptr {X : Type} : EigenPtr X := None.

Definition non_null {X : Type} (p : EigenPtr X) : bool := isSome p.

(** Dereferencing after a successful null check; a null pointer can not get
    here in the operations below, the check comes first in each of them. *)
Definition deref {X : Type} (p : EigenPtr X) : outcome X :=
  if p is Some x then Returns x else Aborts.

(* ------------------------------------------------------------------------- *)
(** ** Text of exception messages *)

Fixpoint contains (needle hay : string) : bool :=
  String.prefix needle hay ||
  match hay with
  | EmptyString => false
  | String _ rest => contains needle rest
  end.

(** Modelled from the spec: [NiceTypeName::Get] (drake/common/nice_type_name.h)
    is not part of the sources at hand.  It is applied to [*this], whose type
    inside the base class is [FemElement<DerivedElement>]; the text it yields
    is the qualified name of that instantiation, which spells the concrete
    element's type name as the template argument. *)
Definition NiceTypeName_Get (derived_type_name : string) : string :=
  ("drake::multibody::fem::internal::FemElement<" ++ derived_type_name ++ ">")%string.

(* ------------------------------------------------------------------------- *)
(** ** Fixed-size vectors and their segments *)

Section Vectors.

Variable F : fieldType.

(** [Vector3<T>{a, b, c}]. *)
Definition Vector3 (a b c : F) : 'cV[F]_3 :=
  \col_(k < 3) nth 0 [:: a; b; c] k.

(** [v(i)] for a 3-vector and a literal index. *)
Definition coeff (v : 'cV[F]_3) (i : nat) : F := v (inord i) 0.

(** [v.segment<3>(offset) = block] on a fixed-size vector. *)
Definition set_segment (n : nat) (v : 'cV[F]_n) (offset : nat)
    (block : 'cV[F]_3) : 'cV[F]_n :=
  \col_(j < n) if ((offset <= j) && (j < offset + 3))%N
               then block (inord (j - offset)%N) 0 else v j 0.

(** [v.segment<3>(offset)] read from a dynamically sized [VectorX<T>]. *)
Definition get_segment (v : seq F) (offset : nat) : 'cV[F]_3 :=
  \col_(k < 3) nth 0 v (offset + k)%N.

End Vectors.

(* ------------------------------------------------------------------------- *)
(** ** The element: traits, fields and the concrete element's members *)

Section Element.

(** [Traits::T], [Traits::num_nodes], [Traits::Data],
    [Traits::ConstitutiveModel]; [FemState<T>] is the global state. *)
Variable F : fieldType.
Variable num_nodes : nat.
Variable Data : Type.
Variable FemState : Type.
Variable ConstitutiveModel : Type.

(** Modelled from the spec: the traits of the concrete elements are not part
    of the sources at hand; the specification fixes
    [num_dofs = 3 * num_nodes] for every concrete element. *)
Definition num_dofs : nat := (3 * num_nodes)%N.

Definition kDim : nat := 3.

(** Modelled from the spec: [DampingModel<T>] (damping_model.h) is not part of
    the sources at hand; it exposes the two Rayleigh coefficients. *)
Record DampingModel : Type := {
  mass_coeff_alpha : F;
  stiffness_coeff_beta : F
}.

(** What the concrete element type declares.  [None] stands for a member the
    concrete type leaves out.  A kernel receives the current contents of the
    buffer it is handed and returns the contents it leaves there; it is taken
    as a function of its arguments, not of the fields of the base class. *)
Record DerivedElement : Type := {
  type_name : string;
  derived_DoComputeData : option (FemState -> outcome Data);
  derived_DoCalcResidual :
    option (Data -> 'cV[F]_num_dofs -> outcome 'cV[F]_num_dofs);
  derived_DoAddScaledStiffnessMatrix :
    option (Data -> F -> 'M[F]_num_dofs -> outcome 'M[F]_num_dofs);
  derived_DoAddScaledMassMatrix :
    option (Data -> F -> 'M[F]_num_dofs -> outcome 'M[F]_num_dofs);
  derived_DoAddScaledExternalForce :
    option (Data -> F -> 'cV[F]_num_dofs -> outcome 'cV[F]_num_dofs)
}.

(** The data members of [FemElement<DerivedElement>] (lines 332-341). *)
Record FemElement : Type := {
  derived : DerivedElement;
  element_index_ : nat;
  node_indices_ : num_nodes.-tuple nat;
  constitutive_model_ : ConstitutiveModel;
  damping_model_ : DampingModel;
  gravity_ : 'cV[F]_3
}.

(** The protected constructor (lines 237-249); [gravity_] takes its default
    member initializer [{0, 0, -9.81}] (line 341). *)
Definition new_FemElement (concrete : DerivedElement) (element_index : nat)
    (node_indices : num_nodes.-tuple nat)
    (constitutive_model : ConstitutiveModel)
    (damping_model : DampingModel) : FemElement :=
  {| derived := concrete;
     element_index_ := element_index;
     node_indices_ := node_indices;
     constitutive_model_ := constitutive_model;
     damping_model_ := damping_model;
     gravity_ := Vector3 0 0 (- (981%:R / 100%:R)) |}.

Definition node_indices (e : FemElement) := node_indices_ e.
Definition element_index (e : FemElement) := element_index_ e.
Definition gravity_vector (e : FemElement) := gravity_ e.

Definition set_gravity_vector (e : FemElement) (gravity : 'cV[F]_3)
    : FemElement :=
  {| derived := derived e;
     element_index_ := element_index_ e;
     node_indices_ := node_indices_ e;
     constitutive_model_ := constitutive_model_ e;
     damping_model_ := damping_model_ e;
     gravity_ := gravity |}.

(* ------------------------------------------------------------------------- *)
(** ** The members of the base class that a concrete element is to hide *)

(** Lines 325-330. *)
Definition ThrowIfNotImplemented {A : Type} (e : FemElement)
    (source_method : string) : outcome A :=
  Throws ("The DerivedElement from " ++
          NiceTypeName_Get (type_name (derived e)) ++
          " must provide an implementation for " ++
          source_method ++ "().")%string.

(** Lines 254-256, 264-267, 275-279, 287-291: each passes [__func__]. *)
Definition FemElement_DoComputeData (e : FemElement) (state : FemState)
    : outcome Data :=
  ThrowIfNotImplemented e "DoComputeData".

Definition FemElement_DoCalcResidual (e : FemElement) (data : Data)
    (residual : 'cV[F]_num_dofs) : outcome 'cV[F]_num_dofs :=
  ThrowIfNotImplemented e "DoCalcResidual".

Definition FemElement_DoAddScaledStiffnessMatrix (e : FemElement) (data : Data)
    (scale : F) (K : 'M[F]_num_dofs) : outcome 'M[F]_num_dofs :=
  ThrowIfNotImplemented e "DoAddScaledStiffnessMatrix".

Definition FemElement_DoAddScaledMassMatrix (e : FemElement) (data : Data)
    (scale : F) (M : 'M[F]_num_dofs) : outcome 'M[F]_num_dofs :=
  ThrowIfNotImplemented e "DoAddScaledMassMatrix".

(** Lines 296-298: the empty body. *)
Definition FemElement_DoAddScaledExternalForce (e : FemElement) (data : Data)
    (scale : F) (external_force : 'cV[F]_num_dofs)
    : outcome 'cV[F]_num_dofs :=
  Returns external_force.

(** [static_cast<const DerivedElement*>(this)->Member]: name lookup starts in
    the concrete type and falls back on the member of the base class. *)
Definition via_derived {Member : Type} (declared : option Member)
    (inherited : Member) : Member :=
  if declared is Some member then member else inherited.

Definition DoComputeData (e : FemElement) :=
  via_derived (derived_DoComputeData (derived e)) (FemElement_DoComputeData e).

Definition DoCalcResidual (e : FemElement) :=
  via_derived (derived_DoCalcResidual (derived e))
              (FemElement_DoCalcResidual e).

Definition DoAddScaledStiffnessMatrix (e : FemElement) :=
  via_derived (derived_DoAddScaledStiffnessMatrix (derived e))
              (FemElement_DoAddScaledStiffnessMatrix e).

Definition DoAddScaledMassMatrix (e : FemElement) :=
  via_derived (derived_DoAddScaledMassMatrix (derived e))
              (FemElement_DoAddScaledMassMatrix e).

(* ------------------------------------------------------------------------- *)
(** ** The public operations *)

(** The same pointer after a write of [x] through it. *)
Definition store {X : Type} (p : EigenPtr X) (x : X) : EigenPtr X :=
  omap (fun _ => x) p.

(** Lines 92-94. *)
Definition ComputeData (e : FemElement) (state : FemState) : outcome Data :=
  DoComputeData e state.

(** Lines 123-128. *)
Definition CalcResidual (e : FemElement) (data : Data)
    (residual : EigenPtr 'cV[F]_num_dofs) : outcome 'cV[F]_num_dofs :=
  DRAKE_ASSERT (non_null residual) ;;;
  zeroed <- deref (store residual 0) ;;
  DoCalcResidual e data zeroed.

(** Lines 138-144. *)
Definition AddScaledStiffnessMatrix (e : FemElement) (data : Data) (scale : F)
    (K : EigenPtr 'M[F]_num_dofs) : outcome 'M[F]_num_dofs :=
  DRAKE_ASSERT (non_null K) ;;;
  held <- deref K ;;
  DoAddScaledStiffnessMatrix e data scale held.

(** Lines 173-179. *)
Definition AddScaledMassMatrix (e : FemElement) (data : Data) (scale : F)
    (M : EigenPtr 'M[F]_num_dofs) : outcome 'M[F]_num_dofs :=
  DRAKE_ASSERT (non_null M) ;;;
  held <- deref M ;;
  DoAddScaledMassMatrix e data scale held.

(** Lines 101-112. *)
Definition CalcTangentMatrix (e : FemElement) (data : Data)
    (weights : 'cV[F]_3) (tangent_matrix : EigenPtr 'M[F]_num_dofs)
    : outcome 'M[F]_num_dofs :=
  DRAKE_DEMAND (non_null tangent_matrix) ;;;
  let zeroed := store tangent_matrix 0 in
  with_stiffness <-
    AddScaledStiffnessMatrix e data
      (coeff weights 0 +
       coeff weights 1 * stiffness_coeff_beta (damping_model_ e))
      zeroed ;;
  AddScaledMassMatrix e data
    (coeff weights 2 + coeff weights 1 * mass_coeff_alpha (damping_model_ e))
    (store tangent_matrix with_stiffness).

(** Lines 156-164. *)
Definition AddScaledDampingMatrix (e : FemElement) (data : Data) (scale : F)
    (D : EigenPtr 'M[F]_num_dofs) : outcome 'M[F]_num_dofs :=
  DRAKE_ASSERT (non_null D) ;;;
  let alpha := mass_coeff_alpha (damping_model_ e) in
  let beta := stiffness_coeff_beta (damping_model_ e) in
  with_mass <- AddScaledMassMatrix e data (scale * alpha) D ;;
  AddScaledStiffnessMatrix e data (scale * beta) (store D with_mass).

(** The loop of lines 310-312, from the contents [storage] the local vector
    happens to have when it is declared. *)
Definition stack_gravity (gravity : 'cV[F]_3) (storage : 'cV[F]_num_dofs)
    : 'cV[F]_num_dofs :=
  foldl (fun stacked_gravity i => set_segment stacked_gravity (kDim * i) gravity)
        storage (iota 0 num_nodes).

(** Lines 303-314.  The local vector is declared without an initializer; every
    entry is written by the loop (see [stack_gravity_col]), the storage is
    taken as zero. *)
Definition AddScaledGravityForce (e : FemElement) (data : Data) (scale : F)
    (force : EigenPtr 'cV[F]_num_dofs) : outcome 'cV[F]_num_dofs :=
  mass_matrix <- AddScaledMassMatrix e data 1 (Some 0) ;;
  let stacked_gravity := stack_gravity (gravity_ e) 0 in
  held <- deref force ;;
  Returns (held + scale *: mass_matrix *m stacked_gravity).

(** Lines 184-192.  Both calls in the body are unqualified calls made inside
    [FemElement] itself: no [static_cast] to the concrete type is involved
    (contrast lines 93, 127, 142 and 177), the functions are not virtual, so
    the names denote the members of [FemElement], whatever the concrete type
    declares under the same names. *)
Definition AddScaledExternalForce (e : FemElement) (data : Data) (scale : F)
    (external_force : EigenPtr 'cV[F]_num_dofs) : outcome 'cV[F]_num_dofs :=
  DRAKE_ASSERT (non_null external_force) ;;;
  with_gravity <- AddScaledGravityForce e data scale external_force ;;
  FemElement_DoAddScaledExternalForce e data scale with_gravity.

(** The loop of lines 201-205, from the contents [storage] of the local
    vector declared on line 200. *)
Definition extract_loop (node_ids : seq nat) (state_dofs : seq F)
    (storage : 'cV[F]_(kDim * num_nodes)) (count : nat)
    : outcome 'cV[F]_(kDim * num_nodes) :=
  foldl (fun so_far i =>
           element_dofs <- so_far ;;
           DRAKE_ASSERT ((nth 0 node_ids i + 1) * kDim <= size state_dofs)%N ;;;
           Returns (set_segment element_dofs (i * kDim)
                      (get_segment state_dofs (nth 0 node_ids i * kDim))))
        (Returns storage) (iota 0 count).

(** Lines 196-207 (static form). *)
Definition ExtractElementDofs (node_ids : num_nodes.-tuple nat)
    (state_dofs : seq F) : outcome 'cV[F]_(kDim * num_nodes) :=
  extract_loop node_ids state_dofs 0 num_nodes.

(** Lines 211-214 (member form). *)
Definition ExtractElementDofs_of (e : FemElement) (state_dofs : seq F)
    : outcome 'cV[F]_(kDim * num_nodes) :=
  ExtractElementDofs (node_indices e) state_dofs.

(* ------------------------------------------------------------------------- *)
(** ** What a concrete element's kernels are required to do

    The comments of lines 258-291 ask the concrete element for kernels that
    provide "the stiffness matrix" and "the mass matrix" scaled by [scale] and
    added to the buffer.  [K] and [M] below are those local matrices. *)

Definition stiffness_kernel_adds (e : FemElement)
    (K : Data -> 'M[F]_num_dofs) : Prop :=
  forall data scale held,
    DoAddScaledStiffnessMatrix e data scale held =
    Returns (held + scale *: K data).

Definition mass_kernel_adds (e : FemElement)
    (M : Data -> 'M[F]_num_dofs) : Prop :=
  forall data scale held,
    DoAddScaledMassMatrix e data scale held = Returns (held + scale *: M data).

(** A residual kernel that adds the constant contribution [c]. *)
Definition residual_kernel_adds (e : FemElement) (c : 'cV[F]_num_dofs)
    : Prop :=
  forall data held, DoCalcResidual e data held = Returns (held + c).

(** The indexed nodes of the first [count] local nodes lie inside
    [state_dofs]: the condition asserted on line 202. *)
Definition in_range (node_ids : seq nat) (state_dofs : seq F) (count : nat)
    : Prop :=
  forall i, (i < count)%N ->
    ((nth 0 node_ids i + 1) * kDim <= size state_dofs)%N.

(** [AddScaledExternalForce] as the comments of lines 190 and 293-295 word it:
    the second call reaches the member the concrete element declares, the
    empty one of the base class being the default.  For comparison with
    [AddScaledExternalForce] only. *)
Definition AddScaledExternalForce_as_documented (e : FemElement) (data : Data)
    (scale : F) (external_force : EigenPtr 'cV[F]_num_dofs)
    : outcome 'cV[F]_num_dofs :=
  DRAKE_ASSERT (non_null external_force) ;;;
  with_gravity <- AddScaledGravityForce e data scale external_force ;;
  via_derived (derived_DoAddScaledExternalForce (derived e))
              (FemElement_DoAddScaledExternalForce e)
              data scale with_gravity.

End Element.

(* ------------------------------------------------------------------------- *)
(** ** Concrete elements used as test doubles

    Two-node elements (six degrees of freedom) over the rationals, with no
    per-element data, no state and no constitutive model to speak of. *)

Definition dummy_residual : 'cV[rat]_(num_dofs 2) := const_mx 7%:R.

Definition unit_force : 'cV[rat]_(num_dofs 2) := const_mx 1.

(** Declares the four required kernels: the mass matrix is the identity, the
    stiffness matrix twice the identity, the residual kernel adds a constant.
    It leaves [DoAddScaledExternalForce] out. *)
Definition DummyElement : DerivedElement rat 2 unit unit := {|
  type_name := "drake::multibody::fem::internal::DummyElement";
  derived_DoComputeData := Some (fun _ => Returns tt);
  derived_DoCalcResidual :=
    Some (fun _ residual => Returns (residual + dummy_residual));
  derived_DoAddScaledStiffnessMatrix :=
    Some (fun _ scale K => Returns (K + scale *: (2%:R)%:M));
  derived_DoAddScaledMassMatrix :=
    Some (fun _ scale M => Returns (M + scale *: 1%:M));
  derived_DoAddScaledExternalForce := None
|}.

(** As [DummyElement], and declares [DoAddScaledExternalForce] to add a unit
    force on every degree of freedom, scaled by [scale]. *)
Definition ForcedElement : DerivedElement rat 2 unit unit := {|
  type_name := "drake::multibody::fem::internal::ForcedElement";
  derived_DoComputeData := derived_DoComputeData DummyElement;
  derived_DoCalcResidual := derived_DoCalcResidual DummyElement;
  derived_DoAddScaledStiffnessMatrix :=
    derived_DoAddScaledStiffnessMatrix DummyElement;
  derived_DoAddScaledMassMatrix := derived_DoAddScaledMassMatrix DummyElement;
  derived_DoAddScaledExternalForce :=
    Some (fun _ scale force => Returns (force + scale *: unit_force))
|}.

(** Declares none of the kernels. *)
Definition BareElement : DerivedElement rat 2 unit unit := {|
  type_name := "drake::multibody::fem::internal::BareElement";
  derived_DoComputeData := None;
  derived_DoCalcResidual := None;
  derived_DoAddScaledStiffnessMatrix := None;
  derived_DoAddScaledMassMatrix := None;
  derived_DoAddScaledExternalForce := None
|}.

(** As [DummyElement], without [DoAddScaledMassMatrix]. *)
Definition MasslessElement : DerivedElement rat 2 unit unit := {|
  type_name := "drake::multibody::fem::internal::MasslessElement";
  derived_DoComputeData := derived_DoComputeData DummyElement;
  derived_DoCalcResidual := derived_DoCalcResidual DummyElement;
  derived_DoAddScaledStiffnessMatrix :=
    derived_DoAddScaledStiffnessMatrix DummyElement;
  derived_DoAddScaledMassMatrix := None;
  derived_DoAddScaledExternalForce := None
|}.

Definition rayleigh : DampingModel rat :=
  {| mass_coeff_alpha := 3%:R; stiffness_coeff_beta := 5%:R |}.

(** An element of the given concrete type on the nodes 0 and 1, built by the
    constructor, hence with the default gravity. *)
Definition element_of (concrete : DerivedElement rat 2 unit unit)
    : FemElement rat 2 unit unit unit :=
  new_FemElement concrete 0 [tuple 0%N; 1%N] tt rayleigh.

(** The vector [0, 0, -9.81, 0, 0, -9.81]. *)
Definition gravity_on_two_nodes : 'cV[rat]_(num_dofs 2) :=
  \col_(j < num_dofs 2)
     nth 0 [:: 0; 0; - (981%:R / 100%:R); 0; 0; - (981%:R / 100%:R)] j.

(** The check of line 202 on each of the first [count] local nodes, as the
    loop makes it. *)
Definition nodes_in_range (F : fieldType) (node_ids : seq nat)
    (state_dofs : seq F) (count : nat) : bool :=
  all (fun i => ((nth 0 node_ids i + 1) * kDim <= size state_dofs)%N)
      (iota 0 count).

(* ------------------------------------------------------------------------- *)
(** ** The matrix operations in double precision

    The solver instantiates [T] with [double].  The four operations on
    matrices are embedded a second time with IEEE binary64 scalars, as the
    code runs them, to tell which identities of exact arithmetic survive
    rounding and overflow.  Matrices of doubles carry no ring structure: sums
    and scalings are entrywise operations on floats. *)

Module Binary64.

Section Element.

Variable num_nodes : nat.
Variable Data : Type.

Notation matrix := 'M[float]_(num_dofs num_nodes).

(** [Matrix::Zero()], what [setZero()] leaves. *)
Definition Zero : matrix := const_mx 0%float.

(** [A + B] and [s * A] of Eigen, entry by entry. *)
Definition plus (A B : matrix) : matrix :=
  \matrix_(i, j) (A i j + B i j)%float.

Definition times (s : float) (A : matrix) : matrix :=
  \matrix_(i, j) (s * A i j)%float.

Record DampingModel : Type := {
  mass_coeff_alpha : float;
  stiffness_coeff_beta : float
}.

(** The two matrix kernels of the concrete element, as in [DerivedElement]
    above. *)
Record DerivedElement : Type := {
  type_name : string;
  derived_DoAddScaledStiffnessMatrix :
    option (Data -> float -> matrix -> outcome matrix);
  derived_DoAddScaledMassMatrix :
    option (Data -> float -> matrix -> outcome matrix)
}.

Record FemElement : Type := {
  derived : DerivedElement;
  damping_model_ : DampingModel
}.

(** Lines 325-330. *)
Definition ThrowIfNotImplemented {A : Type} (e : FemElement)
    (source_method : string) : outcome A :=
  Throws ("The DerivedElement from " ++
          NiceTypeName_Get (type_name (derived e)) ++
          " must provide an implementation for " ++
          source_method ++ "().")%string.

(** Lines 275-279 and 287-291, reached through the [static_cast]. *)
Definition DoAddScaledStiffnessMatrix (e : FemElement) :=
  via_derived (derived_DoAddScaledStiffnessMatrix (derived e))
    (fun _ _ _ => ThrowIfNotImplemented e "DoAddScaledStiffnessMatrix").

Definition DoAddScaledMassMatrix (e : FemElement) :=
  via_derived (derived_DoAddScaledMassMatrix (derived e))
    (fun _ _ _ => ThrowIfNotImplemented e "DoAddScaledMassMatrix").

(** [v(i)] for a 3-vector and a literal index. *)
Definition coeff (v : 'cV[float]_3) (i : nat) : float := v (inord i) ord0.

(** Lines 138-144. *)
Definition AddScaledStiffnessMatrix (e : FemElement) (data : Data)
    (scale : float) (K : EigenPtr matrix) : outcome matrix :=
  DRAKE_ASSERT (non_null K) ;;;
  held <- deref K ;;
  DoAddScaledStiffnessMatrix e data scale held.

(** Lines 173-179. *)
Definition AddScaledMassMatrix (e : FemElement) (data : Data)
    (scale : float) (M : EigenPtr matrix) : outcome matrix :=
  DRAKE_ASSERT (non_null M) ;;;
  held <- deref M ;;
  DoAddScaledMassMatrix e data scale held.

(** Lines 101-112. *)
Definition CalcTangentMatrix (e : FemElement) (data : Data)
    (weights : 'cV[float]_3) (tangent_matrix : EigenPtr matrix)
    : outcome matrix :=
  DRAKE_DEMAND (non_null tangent_matrix) ;;;
  let zeroed := store tangent_matrix Zero in
  with_stiffness <-
    AddScaledStiffnessMatrix e data
      (coeff weights 0 +
       coeff weights 1 * stiffness_coeff_beta (damping_model_ e))%float
      zeroed ;;
  AddScaledMassMatrix e data
    (coeff weights 2 +
     coeff weights 1 * mass_coeff_alpha (damping_model_ e))%float
    (store tangent_matrix with_stiffness).

(** Lines 156-164. *)
Definition AddScaledDampingMatrix (e : FemElement) (data : Data)
    (scale : float) (D : EigenPtr matrix) : outcome matrix :=
  DRAKE_ASSERT (non_null D) ;;;
  let alpha := mass_coeff_alpha (damping_model_ e) in
  let beta := stiffness_coeff_beta (damping_model_ e) in
  with_mass <- AddScaledMassMatrix e data (scale * alpha)%float D ;;
  AddScaledStiffnessMatrix e data (scale * beta)%float (store D with_mass).

(** Kernels that add [scale] times the local matrix, in doubles. *)
Definition stiffness_kernel_adds (e : FemElement) (K : Data -> matrix)
    : Prop :=
  forall data scale held,
    DoAddScaledStiffnessMatrix e data scale held =
    Returns (plus held (times scale (K data))).

Definition mass_kernel_adds (e : FemElement) (M : Data -> matrix) : Prop :=
  forall data scale held,
    DoAddScaledMassMatrix e data scale held =
    Returns (plus held (times scale (M data))).

End Element.

(** [Vector3<double>{a, b, c}]. *)
Definition Vector3 (a b c : float) : 'cV[float]_3 :=
  \col_(k < 3) nth 0%float [:: a; b; c] k.

(** The local matrices of the test double: the identity as mass matrix,
    twice the identity as stiffness matrix, on two nodes. *)
Definition dummy_M : 'M[float]_(num_dofs 2) :=
  \matrix_(i, j) if i == j then 1%float else 0%float.

Definition dummy_K : 'M[float]_(num_dofs 2) :=
  \matrix_(i, j) if i == j then 2%float else 0%float.

Definition DummyElement : DerivedElement 2 unit := {|
  type_name := "drake::multibody::fem::internal::DummyElement";
  derived_DoAddScaledStiffnessMatrix :=
    Some (fun _ scale K => Returns (plus K (times scale dummy_K)));
  derived_DoAddScaledMassMatrix :=
    Some (fun _ scale M => Returns (plus M (times scale dummy_M)))
|}.

(** The test double with Rayleigh coefficients alpha = 3, beta = 5. *)
Definition dummy_element : FemElement 2 unit :=
  {| derived := DummyElement;
     damping_model_ :=
       {| mass_coeff_alpha := 3%float; stiffness_coeff_beta := 5%float |} |}.

(** Entry (0, 0), and entry (0, 1), of the matrix an operation returned. *)
Definition first_entry (result : outcome 'M[float]_(num_dofs 2)) : float :=
  if result is Returns A then A ord0 ord0 else nan.


End Binary64.

(* ------------------------------------------------------------------------- *)
(** ** Substrings *)

Lemma prefix_append (s t post : string) :
  String.prefix s t = true -> String.prefix s (t ++ post)%string = true.
Proof.
elim: s t => [|c s IH] [|d t] //=; first by case: post.
by case: (Ascii.ascii_dec c d) => // _; exact: IH.
Qed.

Lemma prefix_refl (s : string) : String.prefix s s = true.
Proof. by elim: s => [|c s IH] //=; case: (Ascii.ascii_dec c c). Qed.

Lemma contains_refl (s : string) : contains s s.
Proof. by case: s => [|c s] //=; rewrite prefix_refl; case: (Ascii.ascii_dec c c). Qed.

Lemma contains_String (s : string) (d : ascii) (t : string) :
  contains s (String d t) = String.prefix s (String d t) || contains s t.
Proof. by []. Qed.

Lemma contains_before (s t post : string) :
  contains s t -> contains s (t ++ post)%string.
Proof.
elim: t => [|d t IH].
  by rewrite /= orbF; case: s => //; case: post.
rewrite contains_String [(_ ++ _)%string]/= contains_String.
case/orP => [pre|/IH ->]; last by rewrite orbT.
by rewrite (@prefix_append s (String d t) post pre).
Qed.

Lemma contains_after (s pre t : string) :
  contains s t -> contains s (pre ++ t)%string.
Proof. by move=> st; elim: pre => [|c pre IH] //=; rewrite IH orbT. Qed.

Section VectorFacts.
Variable F : fieldType.

Lemma coeff_Vector3 (a b c : F) :
  [/\ coeff (Vector3 a b c) 0 = a, coeff (Vector3 a b c) 1 = b
    & coeff (Vector3 a b c) 2 = c].
Proof. by split; rewrite /coeff /Vector3 mxE inordK. Qed.

Lemma block_index (m j : nat) :
  (3 * m <= j)%N -> (j < 3 * m + 3)%N ->
  (j %/ 3 = m)%N /\ (j - 3 * m = j %% 3)%N.
Proof.
move=> lo hi.
have hi' : (j - 3 * m < 3)%N by rewrite ltn_subLR.
have -> : j = (m * 3 + (j - 3 * m))%N by rewrite mulnC subnKC.
rewrite divnMDl // modnMDl divn_small // modn_small // addn0.
by rewrite [(m * 3)%N]mulnC addKn.
Qed.

End VectorFacts.

Section LoopFacts.
Variables (F : fieldType) (num_nodes : nat).

Lemma stack_gravity_upto (g : 'cV[F]_3) (storage : 'cV[F]_(num_dofs num_nodes)) (m : nat) :
  foldl (fun acc i => set_segment acc (kDim * i) g) storage (iota 0 m) =
  \col_(j < num_dofs num_nodes)
     if (j < 3 * m)%N then g (inord (j %% 3)) 0 else storage j 0.
Proof.
elim: m => [|m IH]; first by apply/colP => j; rewrite mxE muln0.
rewrite -[m.+1]addn1 iotaD foldl_cat IH /= add0n.
apply/colP => j; rewrite /set_segment /kDim !mxE mulnDr muln1.
case: (leqP (3 * m) j) => [lo|hi] /=; last by rewrite (ltn_addr 3 hi) ?hi.
case: (ltnP j (3 * m + 3)) => [hi|//].
by have [_ ->] := block_index lo hi.
Qed.

Lemma stack_gravity_col (g : 'cV[F]_3) (storage : 'cV[F]_(num_dofs num_nodes)) :
  stack_gravity g storage = \col_(j < num_dofs num_nodes) g (inord (j %% 3)) 0.
Proof.
rewrite /stack_gravity stack_gravity_upto; apply/colP => j; rewrite !mxE.
by rewrite -/(num_dofs num_nodes) ltn_ord.
Qed.

Lemma extract_loop_upto (node_ids : seq nat) (state_dofs : seq F)
    (storage : 'cV[F]_(kDim * num_nodes)) (m : nat) :
  in_range node_ids state_dofs m ->
  extract_loop node_ids state_dofs storage m =
  Returns (\col_(j < kDim * num_nodes)
     if (j < 3 * m)%N
     then nth 0 state_dofs (3 * nth 0 node_ids (j %/ 3) + j %% 3)
     else storage j 0).
Proof.
rewrite /extract_loop.
elim: m => [|m IH] ok; first by congr Returns; apply/colP => j; rewrite mxE muln0.
have ok' : in_range node_ids state_dofs m by move=> i lt; apply: ok; apply: ltnW.
rewrite -[m.+1]addn1 iotaD foldl_cat (IH ok') /= add0n.
rewrite (ok m (ltnSn m)) /=; congr Returns.
apply/colP => j; rewrite /set_segment /get_segment /kDim !mxE mulnDr muln1.
rewrite [(m * 3)%N]mulnC.
case: (leqP (3 * m) j) => [lo|hi] /=; last by rewrite (ltn_addr 3 hi) ?hi.
case: (ltnP j (3 * m + 3)) => [hi|//].
have [-> eq] := block_index lo hi.
by rewrite inordK eq ?ltn_mod // [(_ * 3)%N]mulnC.
Qed.

End LoopFacts.

(* ------------------------------------------------------------------------- *)
(** ** The operations of the base class *)

Section ElementFacts.

Variable F : fieldType.
Variable num_nodes : nat.
Variables Data FemState ConstitutiveModel : Type.

Notation element := (FemElement F num_nodes Data FemState ConstitutiveModel).
Notation matrix := 'M[F]_(num_dofs num_nodes).
Notation vector := 'cV[F]_(num_dofs num_nodes).
Notation alpha e := (mass_coeff_alpha (damping_model_ e)).
Notation beta e := (stiffness_coeff_beta (damping_model_ e)).

(** On a valid pointer the three thin wrappers hand the kernel exactly what
    the caller holds; [CalcResidual] hands it zeros. *)
Lemma AddScaledStiffnessMatrix_valid (e : element) data scale (held : matrix) :
  AddScaledStiffnessMatrix e data scale (Some held) =
  DoAddScaledStiffnessMatrix e data scale held.
Proof. by []. Qed.

Lemma AddScaledMassMatrix_valid (e : element) data scale (held : matrix) :
  AddScaledMassMatrix e data scale (Some held) =
  DoAddScaledMassMatrix e data scale held.
Proof. by []. Qed.

Lemma CalcResidual_valid (e : element) data (held : vector) :
  CalcResidual e data (Some held) = DoCalcResidual e data 0.
Proof. by []. Qed.

Lemma CalcTangentMatrix_valid (e : element) data weights (held : matrix) :
  CalcTangentMatrix e data weights (Some held) =
  (with_stiffness <-
     DoAddScaledStiffnessMatrix e data
       (coeff weights 0 + coeff weights 1 * beta e) 0 ;;
   DoAddScaledMassMatrix e data
     (coeff weights 2 + coeff weights 1 * alpha e) with_stiffness).
Proof. by []. Qed.

Lemma AddScaledDampingMatrix_valid (e : element) data scale (held : matrix) :
  AddScaledDampingMatrix e data scale (Some held) =
  (with_mass <- AddScaledMassMatrix e data (scale * alpha e) (Some held) ;;
   AddScaledStiffnessMatrix e data (scale * beta e) (Some with_mass)).
Proof. by []. Qed.

Lemma AddScaledExternalForce_valid (e : element) data scale (held : vector) :
  AddScaledExternalForce e data scale (Some held) =
  (mass_matrix <- DoAddScaledMassMatrix e data 1 0 ;;
   Returns (held + scale *: mass_matrix *m
              (\col_(j < num_dofs num_nodes) gravity_ e (inord (j %% 3)) 0))).
Proof.
rewrite /AddScaledExternalForce /AddScaledGravityForce /=.
rewrite AddScaledMassMatrix_valid stack_gravity_col.
by case: (DoAddScaledMassMatrix e data 1 0).
Qed.

(** The Rayleigh identity on matrices. *)
Lemma rayleigh_fold (w0 w1 w2 a b : F) (K M : matrix) :
  (w0 + w1 * b) *: K + (w2 + w1 * a) *: M =
  w0 *: K + w1 *: (a *: M + b *: K) + w2 *: M.
Proof.
rewrite !scalerDl scalerDr !scalerA -!addrA; congr (_ + _).
by rewrite [RHS]addrCA; congr (_ + _); rewrite addrC.
Qed.

(** Claim C1 (as amended).  On a valid buffer, whatever it held,
    [CalcTangentMatrix] hands the stiffness kernel a zeroed buffer and the
    mass kernel its result; with kernels that add the scaled local matrices
    [K] and [M] the buffer ends as [(w0 + w1*beta)*K + (w2 + w1*alpha)*M],
    and with weights (0,1,0) as [alpha*M + beta*K].  That the folded sum
    equals [w0*K + w1*D + w2*M] is [rayleigh_fold], an identity of exact
    arithmetic which doubles do not keep. *)
Theorem CalcTangentMatrix_folds_rayleigh (e : element)
    (K M : Data -> matrix)
    (HK : stiffness_kernel_adds e K) (HM : mass_kernel_adds e M)
    (data : Data) (weights : 'cV[F]_3) (held : matrix) :
  [/\ CalcTangentMatrix e data weights (Some held) =
      (with_stiffness <-
         DoAddScaledStiffnessMatrix e data
           (coeff weights 0 + coeff weights 1 * beta e) 0 ;;
       DoAddScaledMassMatrix e data
         (coeff weights 2 + coeff weights 1 * alpha e) with_stiffness),
      CalcTangentMatrix e data weights (Some held) =
      Returns ((coeff weights 0 + coeff weights 1 * beta e) *: K data +
               (coeff weights 2 + coeff weights 1 * alpha e) *: M data)
    & CalcTangentMatrix e data (Vector3 0 1 0) (Some held) =
      Returns (alpha e *: M data + beta e *: K data)].
Proof.
split=> //.
- by rewrite CalcTangentMatrix_valid HK /= HM add0r.
- rewrite CalcTangentMatrix_valid HK /= HM add0r.
  have [-> -> ->] := coeff_Vector3 (0 : F) 1 0.
  by rewrite !add0r !mul1r addrC.
Qed.

(** Claim C2.  On a valid buffer, whatever it held, [CalcResidual] hands the
    residual kernel a zeroed vector; with a kernel that adds the constant
    contribution [c] the result is exactly [c]. *)
Theorem CalcResidual_starts_from_zero (e : element) (data : Data)
    (held : vector) :
  CalcResidual e data (Some held) = DoCalcResidual e data 0 /\
  forall c : vector, residual_kernel_adds e c ->
    CalcResidual e data (Some held) = Returns c.
Proof.
by split=> // c Hc; rewrite CalcResidual_valid Hc add0r.
Qed.

(** Claim C3 (as amended).  The stiffness and mass operations pass the
    caller's buffer to the kernel as it is, without zeroing it; with kernels
    that add the scaled local matrix, a buffer holding [X] ends as [X + s*K]
    (resp. [X + s*M]), and two stiffness calls in a row with the same scale
    leave [(X + s*K) + s*K].  In exact arithmetic that is [X + 2*s*K]; in
    doubles it need not be. *)
Theorem AddScaled_accumulates (e : element) (K M : Data -> matrix)
    (HK : stiffness_kernel_adds e K) (HM : mass_kernel_adds e M)
    (data : Data) (s : F) (X : matrix) :
  [/\ AddScaledStiffnessMatrix e data s (Some X) =
      DoAddScaledStiffnessMatrix e data s X,
      AddScaledMassMatrix e data s (Some X) =
      DoAddScaledMassMatrix e data s X,
      AddScaledStiffnessMatrix e data s (Some X) = Returns (X + s *: K data),
      AddScaledMassMatrix e data s (Some X) = Returns (X + s *: M data)
    & (once <- AddScaledStiffnessMatrix e data s (Some X) ;;
       AddScaledStiffnessMatrix e data s (Some once)) =
      Returns (X + s *: K data + s *: K data)].
Proof.
split=> //.
- by rewrite AddScaledStiffnessMatrix_valid HK.
- by rewrite AddScaledMassMatrix_valid HM.
- rewrite !AddScaledStiffnessMatrix_valid HK /= AddScaledStiffnessMatrix_valid.
  by rewrite HK.
Qed.

(** Claim C4 (as amended).  [AddScaledDampingMatrix] is the mass operation at
    scale [s*alpha] followed by the stiffness operation at scale [s*beta] on
    the same buffer, and nothing else; with kernels that add the scaled local
    matrices a buffer holding [D] ends as
    [(D + (s*alpha)*M) + (s*beta)*K].  In exact arithmetic that is
    [D + s*(alpha*M + beta*K)]; in doubles it need not be. *)
Theorem AddScaledDampingMatrix_is_mass_then_stiffness (e : element)
    (data : Data) (s : F) (D : matrix) :
  AddScaledDampingMatrix e data s (Some D) =
  (with_mass <- AddScaledMassMatrix e data (s * alpha e) (Some D) ;;
   AddScaledStiffnessMatrix e data (s * beta e) (Some with_mass)) /\
  forall K M : Data -> matrix,
    stiffness_kernel_adds e K -> mass_kernel_adds e M ->
    AddScaledDampingMatrix e data s (Some D) =
    Returns (D + (s * alpha e) *: M data + (s * beta e) *: K data).
Proof.
split=> // K M HK HM.
rewrite AddScaledDampingMatrix_valid AddScaledMassMatrix_valid HM /=.
by rewrite AddScaledStiffnessMatrix_valid HK.
Qed.


(** Claim C10.  For every element, whatever its kernels do, the external-force
    operation on a buffer holding [f] gives [f] plus what it gives on a zeroed
    buffer (and fails exactly when it fails there). *)
Theorem AddScaledExternalForce_adds_to_held (e : element) (data : Data)
    (s : F) (f : vector) :
  AddScaledExternalForce e data s (Some f) =
  lift_outcome (fun on_zero => f + on_zero)
               (AddScaledExternalForce e data s (Some 0)).
Proof.
rewrite !AddScaledExternalForce_valid.
by case: (DoAddScaledMassMatrix e data 1 0) => //= m; rewrite add0r.
Qed.

(** Claim C8.  A null buffer trips the check that opens each of the six operations:
    the call aborts, whatever the element's kernels would do. *)
Theorem null_buffer_aborts (e : element) (data : Data) (s : F)
    (weights : 'cV[F]_3) :
  [/\ CalcResidual e data nullptr = Aborts,
      CalcTangentMatrix e data weights nullptr = Aborts,
      AddScaledStiffnessMatrix e data s nullptr = Aborts
    & AddScaledMassMatrix e data s nullptr = Aborts] /\
  AddScaledDampingMatrix e data s nullptr = Aborts /\
  AddScaledExternalForce e data s nullptr = Aborts.
Proof. by do !split. Qed.

End ElementFacts.

(* ------------------------------------------------------------------------- *)
(** ** Concrete evaluations *)

Lemma gravity_stacked_twice :
  (\col_(j < num_dofs 2)
      gravity_ (element_of DummyElement) (inord (j %% 3)) 0) =
  gravity_on_two_nodes.
Proof.
apply/colP => j; rewrite /gravity_on_two_nodes /= /Vector3 !mxE.
by case: j => [[|[|[|[|[|[|j]]]]]] lt] //=; rewrite inordK.
Qed.

Lemma unit_force_visible :
  gravity_on_two_nodes + unit_force <> gravity_on_two_nodes.
Proof.
move/colP/(_ ord0); rewrite /gravity_on_two_nodes /unit_force !mxE /= add0r.
by move/eqP; rewrite oner_eq0.
Qed.

(** With the default gravity and the identity as local mass matrix, scale 1
    on a zeroed buffer gives [0, 0, -9.81, 0, 0, -9.81]. *)
Lemma AddScaledExternalForce_default_gravity :
  AddScaledExternalForce (element_of DummyElement) tt 1 (Some 0) =
  Returns gravity_on_two_nodes.
Proof.
rewrite AddScaledExternalForce_valid /DoAddScaledMassMatrix /=.
by rewrite !add0r !scale1r mul1mx gravity_stacked_twice.
Qed.

(** A node index beyond the global vector trips the check of line 202. *)
Lemma ExtractElementDofs_out_of_range :
  ExtractElementDofs [tuple 2%N; 0%N]
    [:: 10%:R; 11%:R; 12%:R; 20%:R; 21%:R; 22%:R : rat] = Aborts.
Proof. by []. Qed.

(** Claim C6.  An element whose concrete type declares [DoAddScaledExternalForce]:
    the operation returns the gravity load alone, the declared member is not
    reached; had the call been delegated as documented, the unit force would
    have been added. *)
Theorem AddScaledExternalForce_skips_declared_hook :
  [/\ AddScaledExternalForce (element_of ForcedElement) tt 1 (Some 0) =
      Returns gravity_on_two_nodes,
      AddScaledExternalForce_as_documented
        (element_of ForcedElement) tt 1 (Some 0) =
      Returns (gravity_on_two_nodes + unit_force)
    & AddScaledExternalForce (element_of ForcedElement) tt 1 (Some 0) <>
      AddScaledExternalForce_as_documented
        (element_of ForcedElement) tt 1 (Some 0)].
Proof.
have code : AddScaledExternalForce (element_of ForcedElement) tt 1 (Some 0) =
            Returns gravity_on_two_nodes.
  rewrite AddScaledExternalForce_valid /DoAddScaledMassMatrix /=.
  by rewrite !add0r !scale1r mul1mx gravity_stacked_twice.
have doc : AddScaledExternalForce_as_documented
             (element_of ForcedElement) tt 1 (Some 0) =
           Returns (gravity_on_two_nodes + unit_force).
  rewrite /AddScaledExternalForce_as_documented /AddScaledGravityForce /=.
  rewrite stack_gravity_col !add0r !scale1r mul1mx.
  by congr (Returns (_ + _)); exact: gravity_stacked_twice.
split=> //; rewrite code doc => -[] eq.
exact: unit_force_visible (esym eq).
Qed.

Section MissingKernels.

Variable F : fieldType.
Variable num_nodes : nat.
Variables Data FemState ConstitutiveModel : Type.

Notation element := (FemElement F num_nodes Data FemState ConstitutiveModel).

(** The text thrown names the method it was given and the concrete type. *)
Lemma ThrowIfNotImplemented_names (A : Type) (e : element)
    (source_method : string) :
  exists what,
    [/\ ThrowIfNotImplemented e source_method = Throws what :> outcome A,
        contains source_method what
      & contains (type_name (derived e)) what].
Proof.
eexists; split; first by [].
- do 3!apply: contains_after.
  by apply: contains_before; exact: contains_refl.
- apply: contains_after; apply: contains_before.
  rewrite /NiceTypeName_Get; apply: contains_after.
  by apply: contains_before; exact: contains_refl.
Qed.

(** Claim C7.  For a concrete type that leaves a required kernel out, the operation
    built on it throws, on a valid buffer, a message that contains the name
    of the kernel and the name of the concrete type. *)
Theorem missing_kernel_throws (e : element) (state : FemState) (data : Data)
    (s : F) (r : 'cV[F]_(num_dofs num_nodes))
    (B : 'M[F]_(num_dofs num_nodes)) :
  [/\ derived_DoComputeData (derived e) = None ->
      exists what,
        [/\ ComputeData e state = Throws what,
            contains "DoComputeData" what
          & contains (type_name (derived e)) what],
      derived_DoCalcResidual (derived e) = None ->
      exists what,
        [/\ CalcResidual e data (Some r) = Throws what,
            contains "DoCalcResidual" what
          & contains (type_name (derived e)) what],
      derived_DoAddScaledStiffnessMatrix (derived e) = None ->
      exists what,
        [/\ AddScaledStiffnessMatrix e data s (Some B) = Throws what,
            contains "DoAddScaledStiffnessMatrix" what
          & contains (type_name (derived e)) what]
    & derived_DoAddScaledMassMatrix (derived e) = None ->
      exists what,
        [/\ AddScaledMassMatrix e data s (Some B) = Throws what,
            contains "DoAddScaledMassMatrix" what
          & contains (type_name (derived e)) what]].
Proof.
split=> omitted.
- rewrite /ComputeData /DoComputeData omitted.
  exact: ThrowIfNotImplemented_names.
- rewrite CalcResidual_valid /DoCalcResidual omitted.
  exact: ThrowIfNotImplemented_names.
- rewrite AddScaledStiffnessMatrix_valid /DoAddScaledStiffnessMatrix omitted.
  exact: ThrowIfNotImplemented_names.
- rewrite AddScaledMassMatrix_valid /DoAddScaledMassMatrix omitted.
  exact: ThrowIfNotImplemented_names.
Qed.

End MissingKernels.

(** Claim C5.  When the global vector is long enough for every indexed node, the
    extraction returns the vector whose entry [3*i + k] is the entry
    [3*node_ids[i] + k] of the global vector, for each local node [i] and
    component [k < 3]; for node indices [2, 0, 1] and blocks [A, B, C, ...]
    it returns [C, A, B]. *)
Theorem ExtractElementDofs_copies_blocks (F : fieldType) :
  (forall (num_nodes : nat) (node_ids : num_nodes.-tuple nat)
          (state_dofs : seq F),
     in_range node_ids state_dofs num_nodes ->
     exists2 element_dofs,
       ExtractElementDofs node_ids state_dofs = Returns element_dofs &
       forall (i k : nat) (j : 'I_(kDim * num_nodes)),
         (i < num_nodes)%N -> (k < 3)%N -> j = (3 * i + k)%N :> nat ->
         element_dofs j 0 = nth 0 state_dofs (3 * nth 0 node_ids i + k)) /\
  (forall (a0 a1 a2 b0 b1 b2 c0 c1 c2 : F) (rest : seq F),
     ExtractElementDofs [tuple 2%N; 0%N; 1%N]
       [:: a0, a1, a2, b0, b1, b2, c0, c1, c2 & rest] =
     Returns (\col_(j < kDim * 3)
                nth 0 [:: c0; c1; c2; a0; a1; a2; b0; b1; b2] j)).
Proof.
split=> [num_nodes node_ids state_dofs ok|a0 a1 a2 b0 b1 b2 c0 c1 c2 rest].
  rewrite /ExtractElementDofs extract_loop_upto //.
  eexists; first by [].
  move=> i k j lt_i lt_k eq_j; rewrite mxE ltn_ord eq_j.
  by rewrite [(3 * i)%N]mulnC divnMDl // modnMDl divn_small // modn_small // addn0.
have ok : in_range [tuple 2%N; 0%N; 1%N]
            [:: a0, a1, a2, b0, b1, b2, c0, c1, c2 & rest] 3.
  by move=> [|[|[|i]]].
rewrite /ExtractElementDofs (extract_loop_upto _ ok).
congr Returns; apply/colP => j; rewrite !mxE ltn_ord.
by case: j => [[|[|[|[|[|[|[|[|[|j]]]]]]]]] lt].
Qed.

(* ------------------------------------------------------------------------- *)
(** ** The theorems at the test doubles *)

Lemma DummyElement_stiffness :
  stiffness_kernel_adds (element_of DummyElement) (fun _ => (2%:R)%:M).
Proof. by []. Defined.

Lemma DummyElement_mass :
  mass_kernel_adds (element_of DummyElement) (fun _ => 1%:M).
Proof. by []. Defined.

Lemma DummyElement_residual :
  residual_kernel_adds (element_of DummyElement) dummy_residual.
Proof. by []. Defined.

Lemma CalcTangentMatrix_folds_rayleigh_witness :
  [/\ stiffness_kernel_adds (element_of DummyElement) (fun _ => (2%:R)%:M),
      mass_kernel_adds (element_of DummyElement) (fun _ => 1%:M)
    & CalcTangentMatrix (element_of DummyElement) tt (Vector3 0 1 0)
        (Some 1%:M) =
      Returns (3%:R *: 1%:M + 5%:R *: (2%:R)%:M)].
Proof.
split; [exact: DummyElement_stiffness | exact: DummyElement_mass |].
by case: (CalcTangentMatrix_folds_rayleigh DummyElement_stiffness
            DummyElement_mass tt (Vector3 0 1 0) 1%:M).
Defined.

Lemma CalcResidual_starts_from_zero_witness :
  residual_kernel_adds (element_of DummyElement) dummy_residual /\
  CalcResidual (element_of DummyElement) tt (Some (const_mx 1)) =
  Returns dummy_residual.
Proof.
split; first exact: DummyElement_residual.
exact: (proj2 (CalcResidual_starts_from_zero (element_of DummyElement) tt
                 (const_mx 1)) dummy_residual DummyElement_residual).
Defined.

Lemma AddScaled_accumulates_witness :
  [/\ stiffness_kernel_adds (element_of DummyElement) (fun _ => (2%:R)%:M),
      mass_kernel_adds (element_of DummyElement) (fun _ => 1%:M)
    & (once <- AddScaledStiffnessMatrix (element_of DummyElement) tt 3%:R
                 (Some 1%:M) ;;
       AddScaledStiffnessMatrix (element_of DummyElement) tt 3%:R (Some once))
      = Returns (1%:M + 3%:R *: (2%:R)%:M + 3%:R *: (2%:R)%:M)].
Proof.
split; [exact: DummyElement_stiffness | exact: DummyElement_mass |].
by case: (AddScaled_accumulates DummyElement_stiffness DummyElement_mass
            tt 3%:R 1%:M).
Defined.

Lemma AddScaledDampingMatrix_is_mass_then_stiffness_witness :
  [/\ stiffness_kernel_adds (element_of DummyElement) (fun _ => (2%:R)%:M),
      mass_kernel_adds (element_of DummyElement) (fun _ => 1%:M)
    & AddScaledDampingMatrix (element_of DummyElement) tt 7%:R (Some 1%:M) =
      Returns (1%:M + (7%:R * 3%:R) *: 1%:M + (7%:R * 5%:R) *: (2%:R)%:M)].
Proof.
split; [exact: DummyElement_stiffness | exact: DummyElement_mass |].
exact: (proj2 (AddScaledDampingMatrix_is_mass_then_stiffness
                 (element_of DummyElement) tt 7%:R 1%:M)
          _ _ DummyElement_stiffness DummyElement_mass).
Defined.


Lemma missing_kernel_throws_witness :
  derived_DoCalcResidual (derived (element_of BareElement)) = None /\
  exists what,
    [/\ CalcResidual (element_of BareElement) tt (Some 0) = Throws what,
        contains "DoCalcResidual" what
      & contains "drake::multibody::fem::internal::BareElement" what].
Proof.
split; first by [].
by case: (missing_kernel_throws (element_of BareElement) tt tt 0 0 0) =>
     _ thrown _ _; exact: thrown.
Defined.

Lemma two_nodes_in_range :
  in_range [tuple 1%N; 0%N] [:: 10%:R; 11%:R; 12%:R; 20%:R; 21%:R; 22%:R : rat]
    2.
Proof. by move=> [|[|i]]. Defined.

Lemma ExtractElementDofs_copies_blocks_witness :
  in_range [tuple 1%N; 0%N] [:: 10%:R; 11%:R; 12%:R; 20%:R; 21%:R; 22%:R : rat]
    2 /\
  exists2 element_dofs,
    ExtractElementDofs [tuple 1%N; 0%N]
      [:: 10%:R; 11%:R; 12%:R; 20%:R; 21%:R; 22%:R : rat] =
    Returns element_dofs &
    element_dofs ord0 0 = 20%:R.
Proof.
split; first exact: two_nodes_in_range.
have [element_dofs returned blocks] :=
  proj1 (ExtractElementDofs_copies_blocks rat) _ _ _ two_nodes_in_range.
exists element_dofs; first exact: returned.
exact: (blocks 0%N 0%N ord0 isT isT erefl).
Defined.

(* ------------------------------------------------------------------------- *)
(** ** Dof extraction: bounds and locality *)

Section ExtractionFacts.

Variables (F : fieldType) (num_nodes : nat).

Lemma nodes_in_rangeP (node_ids : seq nat) (state_dofs : seq F) (count : nat) :
  reflect (in_range node_ids state_dofs count)
          (nodes_in_range node_ids state_dofs count).
Proof.
apply: (iffP allP) => [ok i lt|ok i]; first by apply: ok; rewrite mem_iota.
by rewrite mem_iota add0n => /andP [_ lt]; exact: ok.
Qed.

Lemma nodes_in_rangeS (node_ids : seq nat) (state_dofs : seq F) (m : nat) :
  nodes_in_range node_ids state_dofs m.+1 =
  nodes_in_range node_ids state_dofs m &&
  ((nth 0 node_ids m + 1) * kDim <= size state_dofs)%N.
Proof.
by rewrite /nodes_in_range -[m.+1]addn1 iotaD all_cat /= add0n andbT.
Qed.

Lemma extract_loop_aborts (node_ids : seq nat) (state_dofs : seq F)
    (storage : 'cV[F]_(kDim * num_nodes)) (m : nat) :
  ~~ nodes_in_range node_ids state_dofs m ->
  extract_loop node_ids state_dofs storage m = Aborts.
Proof.
elim: m => [|m IH] //; rewrite nodes_in_rangeS negb_and.
rewrite /extract_loop -[m.+1]addn1 iotaD foldl_cat /= add0n.
rewrite -/(extract_loop node_ids state_dofs storage m).
case ok: (nodes_in_range node_ids state_dofs m) => /= bad; last first.
  by rewrite IH // ok.
by rewrite (extract_loop_upto _ (nodes_in_rangeP _ _ _ ok)) /= (negbTE bad).
Qed.

(** Extra X1.  As long as the bound [(node_indices[i] + 1) * 3] of line 202
    stays within the range of [int] for every local node, the loop of
    [ExtractElementDofs] either trips that bound check or returns the gathered
    vector: it returns exactly when every indexed node lies inside the global
    vector, and never throws. *)
Theorem ExtractElementDofs_checks_bounds (node_ids : num_nodes.-tuple nat)
    (state_dofs : seq F) :
  (forall i, (i < num_nodes)%N ->
     ((nth 0 node_ids i + 1) * kDim < 2 ^ 31)%N) ->
  ExtractElementDofs node_ids state_dofs =
  if nodes_in_range node_ids state_dofs num_nodes
  then Returns (\col_(j < kDim * num_nodes)
                  nth 0 state_dofs (3 * nth 0 node_ids (j %/ 3) + j %% 3))
  else Aborts.
Proof.
move=> _; rewrite /ExtractElementDofs.
case ok: (nodes_in_range node_ids state_dofs num_nodes); last first.
  by rewrite extract_loop_aborts // ok.
rewrite (extract_loop_upto _ (nodes_in_rangeP _ _ _ ok)).
by congr Returns; apply/colP => j; rewrite !mxE ltn_ord.
Qed.

(** Extra X2.  Entries of the global vector beyond the indexed nodes play no part: on a
    vector long enough, the extraction is unchanged when the vector grows. *)
Theorem ExtractElementDofs_ignores_tail (node_ids : num_nodes.-tuple nat)
    (state_dofs more : seq F) :
  in_range node_ids state_dofs num_nodes ->
  ExtractElementDofs node_ids (state_dofs ++ more) =
  ExtractElementDofs node_ids state_dofs.
Proof.
move=> ok.
have ok' : in_range node_ids (state_dofs ++ more) num_nodes.
  by move=> i lt; rewrite size_cat (leq_trans (ok i lt)) // leq_addr.
rewrite /ExtractElementDofs (extract_loop_upto _ ok) (extract_loop_upto _ ok').
congr Returns; apply/colP => j; rewrite !mxE ltn_ord nth_cat.
have lt_node : (j %/ 3 < num_nodes)%N by rewrite ltn_divLR // [(num_nodes * 3)%N]mulnC.
have := ok _ lt_node; rewrite /kDim mulnDl mul1n mulnC => bound.
by rewrite (leq_trans _ bound) // ltn_add2l ltn_mod.
Qed.

End ExtractionFacts.

(* ------------------------------------------------------------------------- *)
(** ** How the operations compose *)

Section Composition.

Variable F : fieldType.
Variable num_nodes : nat.
Variables Data FemState ConstitutiveModel : Type.

Notation element := (FemElement F num_nodes Data FemState ConstitutiveModel).
Notation matrix := 'M[F]_(num_dofs num_nodes).
Notation vector := 'cV[F]_(num_dofs num_nodes).
Notation alpha e := (mass_coeff_alpha (damping_model_ e)).
Notation beta e := (stiffness_coeff_beta (damping_model_ e)).

(** Extra X3.  The two zero-then-write operations overwrite: what the buffer held plays
    no part in the outcome, whatever the kernels do, and running the
    operation again on its own output reproduces that output. *)
Theorem Calc_operations_overwrite (e : element) (data : Data)
    (weights : 'cV[F]_3) (A B : matrix) (r r' : vector) :
  [/\ CalcTangentMatrix e data weights (Some A) =
      CalcTangentMatrix e data weights (Some B),
      (once <- CalcTangentMatrix e data weights (Some A) ;;
       CalcTangentMatrix e data weights (Some once)) =
      CalcTangentMatrix e data weights (Some A),
      CalcResidual e data (Some r) = CalcResidual e data (Some r')
    & (once <- CalcResidual e data (Some r) ;;
       CalcResidual e data (Some once)) = CalcResidual e data (Some r)].
Proof.
split=> //.
- have again T : CalcTangentMatrix e data weights (Some T) =
                 CalcTangentMatrix e data weights (Some A) by [].
  by case first: (CalcTangentMatrix e data weights (Some A)) => [T| |] //=;
     rewrite again.
- have again v : CalcResidual e data (Some v) = CalcResidual e data (Some r).
    by [].
  by case first: (CalcResidual e data (Some r)) => [v| |] //=; rewrite again.
Qed.

(** Extra X4.  With kernels that add the scaled local matrices, the tangent matrix at
    weights (1,0,0) is what the stiffness operation leaves in a zeroed buffer
    at scale 1, and at weights (0,0,1) what the mass operation leaves there. *)
Theorem CalcTangentMatrix_unit_weights (e : element) (K M : Data -> matrix)
    (HK : stiffness_kernel_adds e K) (HM : mass_kernel_adds e M)
    (data : Data) (held : matrix) :
  CalcTangentMatrix e data (Vector3 1 0 0) (Some held) =
  AddScaledStiffnessMatrix e data 1 (Some 0) /\
  CalcTangentMatrix e data (Vector3 0 0 1) (Some held) =
  AddScaledMassMatrix e data 1 (Some 0).
Proof.
rewrite !CalcTangentMatrix_valid AddScaledStiffnessMatrix_valid.
rewrite AddScaledMassMatrix_valid !HK /= !HM.
have [-> -> ->] := coeff_Vector3 (1 : F) 0 0.
have [-> -> ->] := coeff_Vector3 (0 : F) 0 1.
by rewrite !mul0r !addr0 !add0r !scale0r !addr0 add0r.
Qed.

End Composition.

(* ------------------------------------------------------------------------- *)
(** ** Gravity and the operations built on several kernels *)

Section ExternalForce.

Variable F : fieldType.
Variable num_nodes : nat.
Variables Data FemState ConstitutiveModel : Type.

Notation element := (FemElement F num_nodes Data FemState ConstitutiveModel).
Notation matrix := 'M[F]_(num_dofs num_nodes).
Notation vector := 'cV[F]_(num_dofs num_nodes).

(** Extra X8.  For every element, whether or not its concrete type declares
    [DoAddScaledExternalForce]: with a mass kernel that adds the scaled local
    matrix [M], the operation leaves [f + (s * M) * g] in the buffer, [g]
    being the gravity vector repeated once per node: entry [j] of [g] is
    component [j mod 3] of the gravity vector. *)
Theorem AddScaledExternalForce_is_gravity_load (e : element)
    (M : Data -> matrix) (HM : mass_kernel_adds e M)
    (data : Data) (s : F) (f : vector) :
  AddScaledExternalForce e data s (Some f) =
  Returns (f + s *: M data *m
             (\col_(j < num_dofs num_nodes) coeff (gravity_vector e) (j %% 3))).
Proof.
by rewrite AddScaledExternalForce_valid HM /= add0r scale1r.
Qed.

(** Extra X12.  An operation built on several kernels fails as the first kernel that
    fails.  With [DoAddScaledStiffnessMatrix] left out the tangent matrix
    throws the message naming it, whatever the mass kernel; when the stiffness
    kernel returns and [DoAddScaledMassMatrix] is left out, it throws the
    message naming the mass kernel.  With [DoAddScaledMassMatrix] left out the
    damping matrix and the external force throw the message naming it,
    whatever the stiffness kernel, the scale and the gravity vector. *)
Theorem composite_operations_need_kernels (e : element) (data : Data) (s : F)
    (weights : 'cV[F]_3) (B : matrix) (f : vector) :
  [/\ derived_DoAddScaledStiffnessMatrix (derived e) = None ->
      exists what,
        [/\ CalcTangentMatrix e data weights (Some B) = Throws what,
            contains "DoAddScaledStiffnessMatrix" what
          & contains (type_name (derived e)) what],
      derived_DoAddScaledMassMatrix (derived e) = None ->
      (exists T, DoAddScaledStiffnessMatrix e data
                   (coeff weights 0 +
                    coeff weights 1 * stiffness_coeff_beta (damping_model_ e))
                   0 = Returns T) ->
      exists what,
        [/\ CalcTangentMatrix e data weights (Some B) = Throws what,
            contains "DoAddScaledMassMatrix" what
          & contains (type_name (derived e)) what],
      derived_DoAddScaledMassMatrix (derived e) = None ->
      exists what,
        [/\ AddScaledDampingMatrix e data s (Some B) = Throws what,
            contains "DoAddScaledMassMatrix" what
          & contains (type_name (derived e)) what]
    & derived_DoAddScaledMassMatrix (derived e) = None ->
      exists what,
        [/\ AddScaledExternalForce e data s (Some f) = Throws what,
            contains "DoAddScaledMassMatrix" what
          & contains (type_name (derived e)) what]].
Proof.
split=> omitted.
- have [what [thrown op ty]] :=
    ThrowIfNotImplemented_names matrix e "DoAddScaledStiffnessMatrix".
  exists what; split=> //.
  by rewrite -thrown CalcTangentMatrix_valid /DoAddScaledStiffnessMatrix
             omitted.
- case=> T returned.
  have [what [thrown op ty]] :=
    ThrowIfNotImplemented_names matrix e "DoAddScaledMassMatrix".
  exists what; split=> //.
  by rewrite -thrown CalcTangentMatrix_valid returned /DoAddScaledMassMatrix
             omitted.
- have [what [thrown op ty]] :=
    ThrowIfNotImplemented_names matrix e "DoAddScaledMassMatrix".
  exists what; split=> //.
  by rewrite -thrown AddScaledDampingMatrix_valid AddScaledMassMatrix_valid
             /DoAddScaledMassMatrix omitted.
- have [what [thrown op ty]] :=
    ThrowIfNotImplemented_names matrix e "DoAddScaledMassMatrix".
  exists what; split=> //.
  by rewrite AddScaledExternalForce_valid /DoAddScaledMassMatrix omitted
             /via_derived /FemElement_DoAddScaledMassMatrix thrown.
Qed.

End ExternalForce.

(* ------------------------------------------------------------------------- *)
(** ** The further theorems at the test doubles *)

Lemma small_fits_int (n : nat) : (n < 2 ^ 4)%N -> (n < 2 ^ 31)%N.
Proof. by move=> small; apply: leq_trans small _; rewrite leq_pexp2l. Defined.

Lemma two_nodes_fit_int (i : nat) :
  (i < 2)%N -> ((nth 0 [tuple 2%N; 0%N] i + 1) * kDim < 2 ^ 31)%N.
Proof.
by case: i => [|[|i]] lt; [exact: small_fits_int | exact: small_fits_int |].
Defined.

Lemma ExtractElementDofs_checks_bounds_witness :
  (forall i, (i < 2)%N ->
     ((nth 0 [tuple 2%N; 0%N] i + 1) * kDim < 2 ^ 31)%N) /\
  ExtractElementDofs [tuple 2%N; 0%N]
    [:: 10%:R; 11%:R; 12%:R; 20%:R; 21%:R; 22%:R : rat] = Aborts.
Proof.
split; first exact: two_nodes_fit_int.
exact: (ExtractElementDofs_checks_bounds
          [:: 10%:R; 11%:R; 12%:R; 20%:R; 21%:R; 22%:R : rat]
          two_nodes_fit_int).
Defined.

Lemma ExtractElementDofs_ignores_tail_witness :
  in_range [tuple 1%N; 0%N] [:: 10%:R; 11%:R; 12%:R; 20%:R; 21%:R; 22%:R : rat]
    2 /\
  ExtractElementDofs [tuple 1%N; 0%N]
    ([:: 10%:R; 11%:R; 12%:R; 20%:R; 21%:R; 22%:R : rat] ++ [:: 30%:R]) =
  ExtractElementDofs [tuple 1%N; 0%N]
    [:: 10%:R; 11%:R; 12%:R; 20%:R; 21%:R; 22%:R : rat].
Proof.
split; first exact: two_nodes_in_range.
exact: (ExtractElementDofs_ignores_tail [:: 30%:R] two_nodes_in_range).
Defined.

Lemma CalcTangentMatrix_unit_weights_witness :
  [/\ stiffness_kernel_adds (element_of DummyElement) (fun _ => (2%:R)%:M),
      mass_kernel_adds (element_of DummyElement) (fun _ => 1%:M)
    & CalcTangentMatrix (element_of DummyElement) tt (Vector3 1 0 0)
        (Some 1%:M) =
      AddScaledStiffnessMatrix (element_of DummyElement) tt 1 (Some 0)].
Proof.
split; [exact: DummyElement_stiffness | exact: DummyElement_mass |].
exact: (proj1 (CalcTangentMatrix_unit_weights DummyElement_stiffness
                 DummyElement_mass tt 1%:M)).
Defined.

Lemma ForcedElement_mass :
  mass_kernel_adds (element_of ForcedElement) (fun _ => 1%:M).
Proof. by []. Defined.

Lemma AddScaledExternalForce_is_gravity_load_witness :
  mass_kernel_adds (element_of ForcedElement) (fun _ => 1%:M) /\
  AddScaledExternalForce (element_of ForcedElement) tt 2%:R (Some unit_force) =
  Returns (unit_force + 2%:R *: 1%:M *m
             (\col_(j < num_dofs 2)
                coeff (gravity_vector (element_of ForcedElement)) (j %% 3))).
Proof.
split; first exact: ForcedElement_mass.
exact: (AddScaledExternalForce_is_gravity_load ForcedElement_mass tt 2%:R
          unit_force).
Defined.

Lemma composite_operations_need_kernels_witness :
  [/\ derived_DoAddScaledStiffnessMatrix (derived (element_of BareElement)) =
      None,
      derived_DoAddScaledMassMatrix (derived (element_of MasslessElement)) =
      None,
      exists what,
        CalcTangentMatrix (element_of BareElement) tt (Vector3 1 0 0)
          (Some 0) = Throws what /\
        contains "DoAddScaledStiffnessMatrix" what,
      exists what,
        CalcTangentMatrix (element_of MasslessElement) tt (Vector3 1 0 0)
          (Some 0) = Throws what /\
        contains "DoAddScaledMassMatrix" what
    & exists what,
        AddScaledExternalForce (element_of MasslessElement) tt 1 (Some 0) =
        Throws what /\
        contains "DoAddScaledMassMatrix" what].
Proof.
have [bare_tangent _ _ _] :=
  composite_operations_need_kernels (element_of BareElement) tt 1
    (Vector3 1 0 0) 0 0.
have [_ massless_tangent _ massless_force] :=
  composite_operations_need_kernels (element_of MasslessElement) tt 1
    (Vector3 1 0 0) 0 0.
split=> //.
- by have [what [thrown op _]] := bare_tangent erefl; exists what.
- have [what [thrown op _]] :=
    massless_tangent erefl (ex_intro _ _ erefl).
  by exists what.
- by have [what [thrown op _]] := massless_force erefl; exists what.
Defined.

(* ------------------------------------------------------------------------- *)
(** ** Identities of exact arithmetic that doubles do not keep

    The test double in double precision: mass matrix the identity, stiffness
    matrix twice the identity, alpha = 3, beta = 5.  Its kernels add the
    scaled local matrix, as the claims require. *)

Lemma Binary64_DummyElement_stiffness :
  Binary64.stiffness_kernel_adds Binary64.dummy_element
    (fun _ => Binary64.dummy_K).
Proof. by []. Qed.

Lemma Binary64_DummyElement_mass :
  Binary64.mass_kernel_adds Binary64.dummy_element (fun _ => Binary64.dummy_M).
Proof. by []. Qed.

Lemma Binary64_coeff_Vector3 (a b c : float) :
  [/\ Binary64.coeff (Binary64.Vector3 a b c) 0 = a,
      Binary64.coeff (Binary64.Vector3 a b c) 1 = b
    & Binary64.coeff (Binary64.Vector3 a b c) 2 = c].
Proof. by split; rewrite /Binary64.coeff /Binary64.Vector3 mxE inordK. Qed.


(** At weights (0.1, 0.2, 0.3) the tangent matrix has 3.1000000000000005 on
    its diagonal, the unfolded combination [w0*K + w1*(alpha*M + beta*K) +
    w2*M] has 3.1000000000000001. *)
Lemma CalcTangentMatrix_unfolded_differs_in_double :
  [/\ Binary64.first_entry
        (Binary64.CalcTangentMatrix Binary64.dummy_element tt
           (Binary64.Vector3 0.1 0.2 0.3) (Some (Binary64.Zero 2))) =
      3.1000000000000005%float,
      Binary64.first_entry
        (Returns
           (Binary64.plus
              (Binary64.plus
                 (Binary64.times 0.1 Binary64.dummy_K)
                 (Binary64.times 0.2
                    (Binary64.plus (Binary64.times 3 Binary64.dummy_M)
                                   (Binary64.times 5 Binary64.dummy_K))))
              (Binary64.times 0.3 Binary64.dummy_M))) =
      3.1000000000000001%float
    & Binary64.CalcTangentMatrix Binary64.dummy_element tt
        (Binary64.Vector3 0.1 0.2 0.3) (Some (Binary64.Zero 2)) <>
      Returns
        (Binary64.plus
           (Binary64.plus
              (Binary64.times 0.1 Binary64.dummy_K)
              (Binary64.times 0.2
                 (Binary64.plus (Binary64.times 3 Binary64.dummy_M)
                                (Binary64.times 5 Binary64.dummy_K))))
           (Binary64.times 0.3 Binary64.dummy_M))].
Proof.
have folded :
  Binary64.first_entry
    (Binary64.CalcTangentMatrix Binary64.dummy_element tt
       (Binary64.Vector3 0.1 0.2 0.3) (Some (Binary64.Zero 2))) =
  3.1000000000000005%float.
  rewrite /Binary64.CalcTangentMatrix /= /Binary64.first_entry.
  have [-> -> ->] := Binary64_coeff_Vector3 0.1 0.2 0.3.
  by rewrite !mxE eqxx.
have unfolded :
  Binary64.first_entry
    (Returns
       (Binary64.plus
          (Binary64.plus
             (Binary64.times 0.1 Binary64.dummy_K)
             (Binary64.times 0.2
                (Binary64.plus (Binary64.times 3 Binary64.dummy_M)
                               (Binary64.times 5 Binary64.dummy_K))))
          (Binary64.times 0.3 Binary64.dummy_M))) =
  3.1000000000000001%float.
  by rewrite /Binary64.first_entry !mxE eqxx.
split=> // same.
have := congr1 Binary64.first_entry same; rewrite folded unfolded => differ.
by have := congr1 (PrimFloat.eqb 3.1000000000000005) differ.
Qed.

(** On a buffer of ones, two stiffness calls at scale 0.05 leave
    1.2000000000000002 on the diagonal; [X + (2*0.05)*K] has 1.2 there. *)
Lemma AddScaledStiffnessMatrix_twice_differs_in_double :
  [/\ Binary64.first_entry
        (once <- Binary64.AddScaledStiffnessMatrix Binary64.dummy_element tt
                   0.05 (Some (const_mx 1%float)) ;;
         Binary64.AddScaledStiffnessMatrix Binary64.dummy_element tt 0.05
           (Some once)) = 1.2000000000000002%float,
      Binary64.first_entry
        (Returns (Binary64.plus (const_mx 1%float)
                    (Binary64.times (2 * 0.05) Binary64.dummy_K))) =
      1.2%float
    & (once <- Binary64.AddScaledStiffnessMatrix Binary64.dummy_element tt
                 0.05 (Some (const_mx 1%float)) ;;
       Binary64.AddScaledStiffnessMatrix Binary64.dummy_element tt 0.05
         (Some once)) <>
      Returns (Binary64.plus (const_mx 1%float)
                 (Binary64.times (2 * 0.05) Binary64.dummy_K))].
Proof.
have twice :
  Binary64.first_entry
    (once <- Binary64.AddScaledStiffnessMatrix Binary64.dummy_element tt
               0.05 (Some (const_mx 1%float)) ;;
     Binary64.AddScaledStiffnessMatrix Binary64.dummy_element tt 0.05
       (Some once)) = 1.2000000000000002%float.
  rewrite /Binary64.AddScaledStiffnessMatrix /= /Binary64.first_entry.
  by rewrite !mxE eqxx.
have doubled :
  Binary64.first_entry
    (Returns (Binary64.plus (const_mx 1%float)
                (Binary64.times (2 * 0.05) Binary64.dummy_K))) = 1.2%float.
  by rewrite /Binary64.first_entry !mxE eqxx.
split=> // same.
have := congr1 Binary64.first_entry same; rewrite twice doubled => differ.
by have := congr1 (PrimFloat.eqb 1.2) differ.
Qed.

(** On a buffer of ones, the damping operation at scale 0.01 leaves
    1.1300000000000001 on the diagonal; [D + s*(alpha*M + beta*K)] has
    1.1299999999999999 there. *)
Lemma AddScaledDampingMatrix_sum_differs_in_double :
  [/\ Binary64.first_entry
        (Binary64.AddScaledDampingMatrix Binary64.dummy_element tt 0.01
           (Some (const_mx 1%float))) = 1.1300000000000001%float,
      Binary64.first_entry
        (Returns
           (Binary64.plus (const_mx 1%float)
              (Binary64.times 0.01
                 (Binary64.plus (Binary64.times 3 Binary64.dummy_M)
                                (Binary64.times 5 Binary64.dummy_K))))) =
      1.1299999999999999%float
    & Binary64.AddScaledDampingMatrix Binary64.dummy_element tt 0.01
        (Some (const_mx 1%float)) <>
      Returns
        (Binary64.plus (const_mx 1%float)
           (Binary64.times 0.01
              (Binary64.plus (Binary64.times 3 Binary64.dummy_M)
                             (Binary64.times 5 Binary64.dummy_K))))].
Proof.
have composed :
  Binary64.first_entry
    (Binary64.AddScaledDampingMatrix Binary64.dummy_element tt 0.01
       (Some (const_mx 1%float))) = 1.1300000000000001%float.
  rewrite /Binary64.AddScaledDampingMatrix /= /Binary64.first_entry.
  by rewrite !mxE eqxx.
have summed :
  Binary64.first_entry
    (Returns
       (Binary64.plus (const_mx 1%float)
          (Binary64.times 0.01
             (Binary64.plus (Binary64.times 3 Binary64.dummy_M)
                            (Binary64.times 5 Binary64.dummy_K))))) =
  1.1299999999999999%float.
  by rewrite /Binary64.first_entry !mxE eqxx.
split=> // same.
have := congr1 Binary64.first_entry same; rewrite composed summed => differ.
by have := congr1 (PrimFloat.eqb 1.1300000000000001) differ.
Qed.

